(** * A shallow embedding of [app/main.py]

    The program is a FastAPI application with three routes: a static
    mount at [/static], the home page at [/] and a health probe at
    [/health].  The embedding follows the module top to bottom: the
    path constants [BASE_DIR] and [STATIC_DIR], the handlers [home] and
    [health], and the route table [app].

    The handlers run in a small monad that threads the process state
    (the disk, the working directory and the table of open files),
    may raise a Python exception, and logs the system calls made. *)

From Stdlib Require Import NArith ZArith Strings.Ascii Strings.String Strings.Byte.
From stdpp Require Import base gmap strings list.

Local Open Scope string_scope.
Local Open Scope list_scope.

(** ** Python text: [bytes] and [str] *)

(** A [bytes] object is a list of bytes, a [str] a list of code points. *)
Abbreviation bytes := (list Byte.byte).
Abbreviation str := (list N).

Definition bytes_of (s : string) : bytes := String.list_byte_of_string s.

Module Utf8.

(** The strict UTF-8 decoder of [open(..., encoding="utf-8")]: shortest
    form only, no surrogates, nothing above U+10FFFF (RFC 3629). *)

Definition between (lo hi b : N) : bool := ((lo <=? b) && (b <=? hi))%N.

Definition continuation (b : N) : bool := between 0x80 0xBF b.

Definition low6 (b : N) : N := N.land b 0x3F.

Fixpoint decode (bs : list N) : option str :=
  match bs with
  | [] => Some []
  | b0 :: r0 =>
      if (b0 <? 0x80)%N then cons b0 <$> decode r0
      else if (b0 <? 0xC2)%N then None
      else if (b0 <? 0xE0)%N then
        match r0 with
        | b1 :: r1 =>
            if continuation b1
            then cons (N.shiftl (N.land b0 0x1F) 6 + low6 b1)%N <$> decode r1
            else None
        | _ => None
        end
      else if (b0 <? 0xF0)%N then
        match r0 with
        | b1 :: b2 :: r2 =>
            let lo := if (b0 =? 0xE0)%N then 0xA0%N else 0x80%N in
            let hi := if (b0 =? 0xED)%N then 0x9F%N else 0xBF%N in
            if between lo hi b1 && continuation b2
            then cons (N.shiftl (N.land b0 0x0F) 12
                       + N.shiftl (low6 b1) 6 + low6 b2)%N <$> decode r2
            else None
        | _ => None
        end
      else if (b0 <? 0xF5)%N then
        match r0 with
        | b1 :: b2 :: b3 :: r3 =>
            let lo := if (b0 =? 0xF0)%N then 0x90%N else 0x80%N in
            let hi := if (b0 =? 0xF4)%N then 0x8F%N else 0xBF%N in
            if between lo hi b1 && continuation b2 && continuation b3
            then cons (N.shiftl (N.land b0 0x07) 18
                       + N.shiftl (low6 b1) 12
                       + N.shiftl (low6 b2) 6 + low6 b3)%N <$> decode r3
            else None
        | _ => None
        end
      else None
  end.

Definition decode_bytes (data : bytes) : option str :=
  decode (Byte.to_N <$> data).

End Utf8.

(** Universal newlines: a text file opened without [newline=] hands
    CR LF and a lone CR to the caller as LF. *)
Fixpoint translate_newlines (s : str) : str :=
  match s with
  | [] => []
  | c :: r =>
      if (c =? 13)%N then
        10%N :: match r with
                | c' :: r' => if (c' =? 10)%N then translate_newlines r'
                              else translate_newlines r
                | [] => []
                end
      else c :: translate_newlines r
  end.

(** What [f.read()] returns for a file opened with
    [open(path, "r", encoding="utf-8")] whose bytes are [data]:
    [None] stands for [UnicodeDecodeError]. *)
Definition text_of (data : bytes) : option str :=
  translate_newlines <$> Utf8.decode_bytes data.

(** ** [os.path] (POSIX flavour) *)

Module posixpath.

Definition is_sep (c : ascii) : bool := Ascii.eqb c "/"%char.

Fixpoint has_sep (p : string) : bool :=
  match p with
  | EmptyString => false
  | String c r => is_sep c || has_sep r
  end.

Definition startswith_sep (p : string) : bool :=
  match p with
  | String c _ => is_sep c
  | EmptyString => false
  end.

Fixpoint endswith_sep (p : string) : bool :=
  match p with
  | EmptyString => false
  | String c EmptyString => is_sep c
  | String _ r => endswith_sep r
  end.

(** [p[:p.rfind('/') + 1]] *)
Fixpoint head (p : string) : string :=
  match p with
  | EmptyString => EmptyString
  | String c r => if has_sep p then String c (head r) else EmptyString
  end.

(** [h == '/' * len(h)] *)
Fixpoint only_seps (h : string) : bool :=
  match h with
  | EmptyString => true
  | String c r => is_sep c && only_seps r
  end.

(** [h.rstrip('/')] *)
Fixpoint rstrip_sep (h : string) : string :=
  match h with
  | EmptyString => EmptyString
  | String c r =>
      match rstrip_sep r with
      | EmptyString => if is_sep c then EmptyString else String c EmptyString
      | r' => String c r'
      end
  end.

Definition dirname (p : string) : string :=
  let h := head p in
  if negb (String.eqb h "") && negb (only_seps h) then rstrip_sep h else h.

Definition join (a b : string) : string :=
  if startswith_sep b then b
  else if String.eqb a "" || endswith_sep a then a +:+ b
  else a +:+ "/" +:+ b.

(** [p.split('/')] *)
Fixpoint split (p : string) : list string :=
  match p with
  | EmptyString => [EmptyString]
  | String c r =>
      if is_sep c then EmptyString :: split r
      else match split r with
           | s :: t => String c s :: t
           | [] => [String c EmptyString]
           end
  end.

End posixpath.

(** ** The process: disk, open files, exceptions *)

(** A resolved path is the list of its components below the root. *)
Abbreviation path := (list string).

Inductive node :=
| File (data : bytes) (readable : bool)
| Dir.

Record open_file := { of_path : path; of_pos : nat }.

(** The state a handler can observe or change: the disk and the
    process's table of open files. *)
Record world := { disk : gmap path node; fds : gmap nat open_file }.

Inductive exn :=
| FileNotFoundError
| IsADirectoryError
| PermissionError
| UnicodeDecodeError
| ValueError.

Inductive syscall :=
| SysOpen (p : path)
| SysRead (fd : nat)
| SysClose (fd : nat).

Inductive result (A : Type) :=
| Ok (a : A)
| Raise (e : exn).
Arguments Ok {A} a.
Arguments Raise {A} e.

(** A computation maps the state to an outcome, the new state and the
    system calls it made, oldest first. *)
Definition M (A : Type) : Type := world → result A * world * list syscall.

#[export] Instance M_ret : MRet M := λ A a w, (Ok a, w, []).

#[export] Instance M_bind : MBind M := λ A B k c w,
  match c w with
  | (Ok a, w1, t1) => let '(r, w2, t2) := k a w1 in (r, w2, t1 ++ t2)
  | (Raise e, w1, t1) => (Raise e, w1, t1)
  end.

Definition outcome {R} (x : R * world * list syscall) : R := x.1.1.
Definition after {R} (x : R * world * list syscall) : world := x.1.2.
Definition calls {R} (x : R * world * list syscall) : list syscall := x.2.

(** Lexical path resolution, as the kernel does it on a tree without
    symbolic links: empty and [.] components are skipped, [..] goes to
    the parent and stays at the root. *)
Definition step (stack : path) (seg : string) : path :=
  if decide (seg = "" ∨ seg = ".") then stack
  else if decide (seg = "..") then removelast stack
  else stack ++ [seg].

Definition walk (base : path) (segs : list string) : path :=
  fold_left step segs base.

Section Process.

(** The working directory of the server process; the program never
    changes it. *)
Variable cwd : path.

Definition namei (p : string) : path :=
  walk (if posixpath.startswith_sep p then [] else cwd) (posixpath.split p).

(** [open(p, "r", encoding="utf-8")] *)
Definition open (p : string) : M nat := λ w,
  let target := namei p in
  match disk w !! target with
  | None => (Raise FileNotFoundError, w, [SysOpen target])
  | Some Dir => (Raise IsADirectoryError, w, [SysOpen target])
  | Some (File _ false) => (Raise PermissionError, w, [SysOpen target])
  | Some (File _ true) =>
      let fd := fresh (dom (fds w)) in
      (Ok fd,
       {| disk := disk w;
          fds := <[fd := {| of_path := target; of_pos := 0 |}]> (fds w) |},
       [SysOpen target])
  end.

(** [f.read()] on a text file: everything from the current position
    to the end, decoded. *)
Definition read (fd : nat) : M str := λ w,
  match fds w !! fd with
  | None => (Raise ValueError, w, [])
  | Some f =>
      let data := match disk w !! of_path f with
                  | Some (File d _) => d
                  | _ => []
                  end in
      let w' := {| disk := disk w;
                   fds := <[fd := {| of_path := of_path f;
                                     of_pos := length data |}]> (fds w) |} in
      match text_of (drop (of_pos f) data) with
      | Some t => (Ok t, w', [SysRead fd])
      | None => (Raise UnicodeDecodeError, w', [SysRead fd])
      end
  end.

(** [f.close()] *)
Definition close (fd : nat) : M unit := λ w,
  (Ok tt, {| disk := disk w; fds := delete fd (fds w) |}, [SysClose fd]).

(** [try: c finally: cleanup] *)
Definition finally {A} (c : M A) (cleanup : M unit) : M A := λ w,
  let '(r, w1, t1) := c w in
  let '(_, w2, t2) := cleanup w1 in
  (r, w2, t1 ++ t2).

(** [with open(p, "r", encoding="utf-8") as f: body]: the file is
    closed on the way out, whether [body] returns or raises. *)
Definition with_open {A} (p : string) (body : nat → M A) : M A :=
  f ← open p; finally (body f) (close f).

End Process.

(** The file tree is managed from outside the server: a deployment may
    replace a file or remove it between two requests. *)
Definition write_file (p : path) (data : bytes) (w : world) : world :=
  {| disk := <[p := File data true]> (disk w); fds := fds w |}.

Definition remove_file (p : path) (w : world) : world :=
  {| disk := delete p (disk w); fds := fds w |}.

(** ** Responses *)

#[warnings="-register-all"]
Inductive json :=
| JString (s : string)
| JObject (members : list (string * json)).

(** [Default] is the framework's own error page, which the program
    does not choose. *)
Inductive payload :=
| Text (t : str)
| Json (j : json)
| Raw (b : bytes)
| Default.

Record response := {
  status_code : Z;
  media_type : option string;
  body : payload
}.

Definition error (status : Z) : response :=
  {| status_code := status; media_type := None; body := Default |}.

(** Serving a request always ends in a response. *)
Definition served : Type := world → response * world * list syscall.

(** Modelled from the spec: the framework's route wrapper, which is
    not part of the sources.  A handler that returns gives status 200
    with the route's response class; a handler that raises gives a
    server error, status 500 (spec 4.2 and the table of 6). *)
Definition respond {A} (media : string) (render : A → payload) (h : M A)
  : served := λ w,
  match h w with
  | (Ok a, w', t) =>
      ({| status_code := 200; media_type := Some media; body := render a |},
       w', t)
  | (Raise _, w', t) => (error 500, w', t)
  end.

Definition HTMLResponse : M str → served := respond "text/html" Text.
Definition JSONResponse : M json → served := respond "application/json" Json.

(** How the static mount answers a path that leaves its directory:
    the spec allows either status. *)
Inductive refusal := Forbidden | NotFound.

Definition refusal_status (r : refusal) : Z :=
  match r with Forbidden => 403 | NotFound => 404 end.

Fixpoint has_dot (s : string) : bool :=
  match s with
  | EmptyString => false
  | String c r => Ascii.eqb c "."%char || has_dot r
  end.

(** The extension of a file name: from its last dot on. *)
Fixpoint extension (name : string) : string :=
  match name with
  | EmptyString => EmptyString
  | String c r =>
      if has_dot r then extension r
      else if Ascii.eqb c "."%char then name else EmptyString
  end.

Fixpoint strip_prefix (pre s : string) : option string :=
  match pre, s with
  | EmptyString, _ => Some s
  | String a pre', String b s' =>
      if Ascii.eqb a b then strip_prefix pre' s' else None
  | String _ _, EmptyString => None
  end.

(** ** The application *)

Section App.

Variable cwd : path.

(** [__file__]: the path of the module's source file. *)
Variable module_file : string.

(** The table from file extensions to content types, which the
    sources do not contain. *)
Variable content_type_of : string → string.

Variable on_traversal : refusal.

Definition BASE_DIR : string := posixpath.dirname module_file.
Definition STATIC_DIR : string := posixpath.join BASE_DIR "static".

(** Modelled from the spec: the static-file application that
    [app.mount] installs; it belongs to the framework and is not part
    of the sources.  The remainder of the request path is resolved
    below [directory]; a path that leaves the directory is refused, a
    file found there is returned byte for byte with the content type
    of its extension, anything else is 404 (spec 4.1).  The spec
    describes the mount by its responses only and names no failure for
    a file that is present: the model changes no state, logs no system
    call and does not look at the file's permissions. *)
Definition StaticFiles (directory rest : string) : served := λ w,
  let dir := namei cwd directory in
  let target := walk dir (posixpath.split rest) in
  if bool_decide (dir `prefix_of` target) then
    match disk w !! target with
    | Some (File data _) =>
        ({| status_code := 200;
            media_type := Some (content_type_of (extension (List.last target "")));
            body := Raw data |}, w, [])
    | _ => (error 404, w, [])
    end
  else (error (refusal_status on_traversal), w, []).

Definition home : M str :=
  with_open cwd (posixpath.join STATIC_DIR "index.html") (read).

Definition health : M json :=
  mret (JObject [("status", JString "ok")]).

(** The route table, in the order the module registers it; a path no
    route matches is 404.  Requests are GET requests. *)
Definition app (request_path : string) : served :=
  match strip_prefix "/static/" request_path with
  | Some rest => StaticFiles STATIC_DIR rest
  | None =>
      if decide (request_path = "/") then HTMLResponse home
      else if decide (request_path = "/health") then JSONResponse health
      else λ w, (error 404, w, [])
  end.

(** Where the index page lives on disk. *)
Definition index_path : path :=
  namei cwd (posixpath.join STATIC_DIR "index.html").

Definition static_root : path := namei cwd STATIC_DIR.

End App.

(** ** A sample deployment *)

Module Sample.

Definition module_file : string := "/srv/app/main.py".

Definition content_type_of (ext : string) : string :=
  if decide (ext = ".png") then "image/png"
  else if decide (ext = ".html") then "text/html"
  else "application/octet-stream".

Definition page : bytes := bytes_of "<h1>Hi</h1>".

(** The page as Python sees it: the code points of [<h1>Hi</h1>]. *)
Definition page_text : str :=
  [60; 104; 49; 62; 72; 105; 60; 47; 104; 49; 62]%N.

Definition logo : bytes := bytes_of "0123456789".

Definition files : gmap path node :=
  <[ ["srv"; "app"; "static"; "index.html"] := File page true ]>
  (<[ ["srv"; "app"; "static"; "logo.png"] := File logo true ]>
  (<[ ["srv"; "app"; "static"] := Dir ]>
  (<[ ["srv"; "app"; "main.py"] := File (bytes_of "app = FastAPI()") true ]>
  (<[ ["srv"; "app"] := Dir ]> ∅)))).

Definition w0 : world := {| disk := files; fds := ∅ |}.

(** The same deployment with a page that has a Windows line end. *)
Definition crlf_page : bytes := [Byte.x61; Byte.x0d; Byte.x0a; Byte.x62].

Definition w_crlf : world :=
  write_file ["srv"; "app"; "static"; "index.html"] crlf_page w0.

Definition serve : string → served :=
  app [] module_file content_type_of NotFound.

End Sample.

(** ** Unicode *)

(** A Unicode scalar value: a code point up to U+10FFFF that is not a
    surrogate.  These are the code points a [str] can be encoded
    from. *)
Definition scalar_value (c : N) : bool :=
  ((c <? 0xD800) || ((0xDFFF <? c) && (c <? 0x110000)))%N.

(** * Properties *)

(** ** The decoder on sample bytes *)

Example decode_euro_sign :
  Utf8.decode [0xE2; 0x82; 0xAC]%N = Some [0x20AC]%N.
Proof. reflexivity. Qed.

Example decode_rejects_overlong : Utf8.decode [0xC0; 0x80]%N = None.
Proof. reflexivity. Qed.

Example decode_rejects_surrogate : Utf8.decode [0xED; 0xA0; 0x80]%N = None.
Proof. reflexivity. Qed.

Example decode_rejects_truncated : Utf8.decode [0xE2; 0x82]%N = None.
Proof. reflexivity. Qed.

(** ** Paths *)

Module posixpath_facts.
Import posixpath.

Lemma append_cons (x : ascii) (a b : string) :
  String x a +:+ b = String x (a +:+ b).
Proof. reflexivity. Qed.

Lemma append_assoc (a b c : string) : (a +:+ b) +:+ c = a +:+ (b +:+ c).
Proof.
  induction a as [|x a IH]; [done |].
  rewrite !append_cons. by f_equal.
Qed.

Lemma append_nonempty (a : string) (c : ascii) (r : string) :
  a +:+ String c r ≠ "".
Proof. by destruct a. Qed.

Lemma endswith_sep_append (a : string) (c : ascii) (r : string) :
  endswith_sep (a +:+ String c r) = endswith_sep (String c r).
Proof.
  induction a as [|x a IH]; [done |].
  rewrite append_cons, <- IH. simpl.
  destruct (a +:+ String c r) eqn:E; [|done].
  by apply append_nonempty in E.
Qed.

Lemma startswith_sep_append (a b : string) :
  a ≠ "" → startswith_sep (a +:+ b) = startswith_sep a.
Proof. by destruct a. Qed.

Lemma split_nonempty (p : string) : split p ≠ [].
Proof.
  destruct p as [|c r]; simpl; [done |].
  destruct (is_sep c); [done |]. by destruct (split r).
Qed.

(** Splitting at a separator splits the list of components. *)
Lemma split_append_sep (a b : string) :
  split (a +:+ String "/" b) = split a ++ split b.
Proof.
  induction a as [|c a IH]; [done |].
  rewrite append_cons. simpl.
  rewrite IH. destruct (is_sep c); [done |].
  pose proof (split_nonempty a). by destruct (split a).
Qed.

Lemma split_no_sep (s : string) : has_sep s = false → split s = [s].
Proof.
  induction s as [|c s IH]; simpl; [done |].
  intros [Hc Hs]%orb_false_elim. rewrite Hc, (IH Hs). done.
Qed.

(** Joining onto a directory whose name is not a separator run. *)
Lemma join_plain (a b : string) :
  a ≠ "" → endswith_sep a = false → startswith_sep b = false →
  join a b = a +:+ "/" +:+ b.
Proof.
  intros Ha He Hb. unfold join. rewrite Hb, He.
  destruct a; [done | done].
Qed.

Lemma join_static_shape (a : string) :
  ∃ x, join a "static" = x +:+ "static".
Proof.
  unfold join. simpl startswith_sep. cbv iota.
  destruct (String.eqb a "" || endswith_sep a).
  - by exists a.
  - exists (a +:+ "/"). symmetry. apply append_assoc.
Qed.

Lemma has_sep_append_sep (a b : string) : has_sep (a +:+ String "/" b) = true.
Proof.
  induction a as [|c a IH]; [done |].
  rewrite append_cons. simpl. rewrite IH. apply orb_true_r.
Qed.

Lemma head_no_sep (s : string) : has_sep s = false → head s = "".
Proof. destruct s as [|c s]; [done |]. simpl. by intros ->. Qed.

(** Up to the last separator: what [dirname] starts from. *)
Lemma head_append_sep (a name : string) :
  has_sep name = false → head (a +:+ String "/" name) = a +:+ "/".
Proof.
  intros Hname. induction a as [|c a IH].
  - simpl. by rewrite (head_no_sep _ Hname).
  - rewrite !append_cons.
    change (head (String c (a +:+ String "/" name)))
      with (if is_sep c || has_sep (a +:+ String "/" name)
            then String c (head (a +:+ String "/" name)) else "").
    by rewrite has_sep_append_sep, orb_true_r, IH.
Qed.

Lemma only_seps_append (a b : string) :
  only_seps (a +:+ b) = only_seps a && only_seps b.
Proof.
  induction a as [|c a IH]; [done |].
  rewrite append_cons. simpl. by rewrite IH, andb_assoc.
Qed.

Lemma only_seps_named (a : string) :
  a ≠ "" → endswith_sep a = false → only_seps a = false.
Proof.
  induction a as [|c a IH]; [done |]. intros _ He.
  destruct a as [|c' a].
  - simpl in *. by rewrite He.
  - change (only_seps (String c (String c' a)))
      with (is_sep c && only_seps (String c' a)).
    rewrite IH; [apply andb_false_r | done | done].
Qed.

Lemma rstrip_sep_named (a : string) :
  endswith_sep a = false → rstrip_sep a = a.
Proof.
  induction a as [|c a IH]; [done |]. intros He.
  destruct a as [|c' a].
  - simpl in *. by rewrite He.
  - change (rstrip_sep (String c (String c' a)))
      with (match rstrip_sep (String c' a) with
            | "" => if is_sep c then "" else String c ""
            | r' => String c r'
            end).
    by rewrite IH.
Qed.

Lemma rstrip_sep_append_sep (a : string) :
  rstrip_sep (a +:+ "/") = rstrip_sep a.
Proof.
  induction a as [|c a IH]; [done |].
  rewrite append_cons. simpl. by rewrite IH.
Qed.

(** The directory of [d/name] is [d], for a directory [d] that is
    named and not written with a trailing separator. *)
Lemma dirname_of_entry (d name : string) :
  d ≠ "" → endswith_sep d = false → has_sep name = false →
  dirname (d +:+ "/" +:+ name) = d.
Proof.
  intros Hd He Hname. unfold dirname.
  change (d +:+ "/" +:+ name) with (d +:+ String "/" name).
  rewrite (head_append_sep _ _ Hname).
  rewrite only_seps_append, (only_seps_named _ Hd He). simpl.
  destruct (String.eqb_spec (d +:+ "/") "") as [E|_].
  - by apply append_nonempty in E.
  - simpl. by rewrite rstrip_sep_append_sep, rstrip_sep_named.
Qed.

End posixpath_facts.

Lemma walk_app (base : path) (s1 s2 : list string) :
  walk base (s1 ++ s2) = walk (walk base s1) s2.
Proof. apply fold_left_app. Qed.

(** A proper component is a file name: not empty, not [.] or [..],
    and free of separators. *)
Definition proper (seg : string) : Prop :=
  seg ≠ "" ∧ seg ≠ "." ∧ seg ≠ ".." ∧ posixpath.has_sep seg = false.

Lemma step_proper (stack : path) (seg : string) :
  proper seg → step stack seg = stack ++ [seg].
Proof.
  intros (H1 & H2 & H3 & _). unfold step.
  rewrite decide_False by (by intros [?|?]). by rewrite decide_False.
Qed.

Lemma walk_proper (base : path) (segs : list string) :
  Forall proper segs → walk base segs = base ++ segs.
Proof.
  revert base. induction segs as [|seg segs IH]; intros base H.
  - unfold walk. simpl. by rewrite app_nil_r.
  - apply Forall_cons in H as [Hseg Hsegs].
    change (walk base (seg :: segs)) with (walk (step base seg) segs).
    rewrite (IH _ Hsegs), (step_proper _ _ Hseg), <- app_assoc. done.
Qed.

Lemma translate_newlines_no_cr (t : str) :
  13%N ∉ t → translate_newlines t = t.
Proof.
  induction t as [|c t IH]; [done |].
  intros [Hc Ht]%not_elem_of_cons. simpl.
  destruct (N.eqb_spec c 13) as [->|_]; [done |]. by rewrite IH.
Qed.

Lemma last_app_nonempty {A} (l l' : list A) (d : A) :
  l' ≠ [] → List.last (l ++ l') d = List.last l' d.
Proof.
  intros Hl'. induction l as [|x l IH]; [done |].
  simpl. rewrite IH. destruct (l ++ l') eqn:E; [|done].
  by apply app_eq_nil in E as [_ ?].
Qed.

(** The URL of a relative path is its components joined by [/];
    splitting it gives the components back. *)
Lemma split_concat (rel : list string) :
  rel ≠ [] → Forall proper rel →
  posixpath.split (String.concat "/" rel) = rel.
Proof.
  induction rel as [|x rel IH]; [done |]. intros _ H.
  apply Forall_cons in H as [(_ & _ & _ & Hx) Hrel].
  destruct rel as [|y rel].
  - simpl. by apply posixpath_facts.split_no_sep.
  - change (String.concat "/" (x :: y :: rel))
      with (x +:+ String "/" (String.concat "/" (y :: rel))).
    rewrite posixpath_facts.split_append_sep, IH by done.
    by rewrite (posixpath_facts.split_no_sep _ Hx).
Qed.

Section AppFacts.

Variable cwd : path.
Variable module_file : string.
Variable content_type_of : string → string.
Variable on_traversal : refusal.

Local Abbreviation STATIC := (STATIC_DIR module_file).
Local Abbreviation idx := (index_path cwd module_file).
Local Abbreviation root := (static_root cwd module_file).

Lemma index_file_name :
  posixpath.join STATIC "index.html" = STATIC +:+ "/" +:+ "index.html".
Proof.
  destruct (posixpath_facts.join_static_shape (BASE_DIR module_file)) as [x Hx].
  unfold STATIC_DIR. rewrite Hx.
  apply posixpath_facts.join_plain; [| |done].
  - apply posixpath_facts.append_nonempty.
  - by rewrite posixpath_facts.endswith_sep_append.
Qed.

(** [STATIC_DIR] is the directory [static] next to the module's file. *)
Lemma static_dir_beside_module (d name : string) :
  d ≠ "" → posixpath.endswith_sep d = false → posixpath.has_sep name = false →
  STATIC_DIR (d +:+ "/" +:+ name) = d +:+ "/" +:+ "static".
Proof.
  intros Hd He Hname. unfold STATIC_DIR, BASE_DIR.
  rewrite posixpath_facts.dirname_of_entry by done.
  by apply posixpath_facts.join_plain.
Qed.

(** The index page is the entry [index.html] of the static directory. *)
Lemma index_path_in_static_root : idx = root ++ ["index.html"].
Proof.
  unfold index_path, static_root, namei. rewrite index_file_name.
  destruct (posixpath_facts.join_static_shape (BASE_DIR module_file)) as [x Hx].
  rewrite posixpath_facts.startswith_sep_append.
  2:{ unfold STATIC_DIR. rewrite Hx. apply posixpath_facts.append_nonempty. }
  change (STATIC +:+ "/" +:+ "index.html")
    with (STATIC +:+ String "/" "index.html").
  rewrite posixpath_facts.split_append_sep, walk_app. done.
Qed.

(** What one run of [home] does, case by case on the index file. *)
Lemma home_run (w : world) :
  home cwd module_file w =
  match disk w !! idx with
  | Some (File data true) =>
      let fd := fresh (dom (fds w)) in
      (match text_of data with
       | Some t => Ok t
       | None => Raise UnicodeDecodeError
       end, w, [SysOpen idx; SysRead fd; SysClose fd])
  | Some (File _ false) => (Raise PermissionError, w, [SysOpen idx])
  | Some Dir => (Raise IsADirectoryError, w, [SysOpen idx])
  | None => (Raise FileNotFoundError, w, [SysOpen idx])
  end.
Proof.
  unfold home, with_open, mbind, M_bind, open.
  fold idx. destruct w as [d f]. simpl.
  destruct (d !! idx) as [[data [|]|]|] eqn:Hd; try done.
  unfold finally, read, close. simpl.
  rewrite lookup_insert_eq. simpl. rewrite Hd, drop_0.
  rewrite insert_insert_eq.
  destruct (text_of data); simpl;
    by rewrite delete_insert_id by (apply not_elem_of_dom, is_fresh).
Qed.

Local Abbreviation serve := (app cwd module_file content_type_of on_traversal).

Lemma route_home : serve "/" = HTMLResponse (home cwd module_file).
Proof. reflexivity. Qed.

Lemma route_health : serve "/health" = JSONResponse health.
Proof. reflexivity. Qed.

Lemma strip_prefix_append (pre s : string) :
  strip_prefix pre (pre +:+ s) = Some s.
Proof.
  induction pre as [|c pre IH]; [by destruct s |].
  rewrite posixpath_facts.append_cons. simpl.
  by rewrite Ascii.eqb_refl.
Qed.

Lemma route_static (rest : string) :
  serve ("/static/" +:+ rest)
  = StaticFiles cwd content_type_of on_traversal STATIC rest.
Proof. unfold app. by rewrite strip_prefix_append. Qed.

(** The response to [GET /], case by case on the index file. *)
Lemma serve_home (w : world) :
  serve "/" w =
  match disk w !! idx with
  | Some (File data true) =>
      let fd := fresh (dom (fds w)) in
      (match text_of data with
       | Some t => {| status_code := 200; media_type := Some "text/html";
                      body := Text t |}
       | None => error 500
       end, w, [SysOpen idx; SysRead fd; SysClose fd])
  | _ => (error 500, w, [SysOpen idx])
  end.
Proof.
  rewrite route_home. unfold HTMLResponse, respond. rewrite home_run.
  destruct (disk w !! idx) as [[data [|]|]|]; try done.
  simpl. by destruct (text_of data).
Qed.

(** C3: [GET /health] answers 200 with the JSON object
    [{"status": "ok"}] from every state of the process and the disk;
    it raises nothing, makes no system call and leaves the state as
    it was. *)
Theorem health_always_ok (w : world) :
  serve "/health" w
  = ({| status_code := 200; media_type := Some "application/json";
        body := Json (JObject [("status", JString "ok")]) |}, w, []).
Proof. reflexivity. Qed.

(** C2: when the index file is there, readable and decodes,
    [GET /] opens it, reads it once and closes it, and answers 200
    with content type [text/html] and the file's text as body; the
    state is left as it was, and if the file is rewritten before the
    next request, that request answers with the new text. *)
Theorem home_serves_current_index (w : world) (data : bytes) (t : str) :
  disk w !! idx = Some (File data true) →
  text_of data = Some t →
  outcome (serve "/" w)
  = {| status_code := 200; media_type := Some "text/html"; body := Text t |}
  ∧ calls (serve "/" w)
    = [SysOpen idx; SysRead (fresh (dom (fds w)));
       SysClose (fresh (dom (fds w)))]
  ∧ after (serve "/" w) = w
  ∧ ∀ (data' : bytes) (t' : str),
      text_of data' = Some t' →
      outcome (serve "/" (write_file idx data' (after (serve "/" w))))
      = {| status_code := 200; media_type := Some "text/html";
           body := Text t' |}.
Proof.
  intros Hd Ht. rewrite serve_home, Hd. simpl. rewrite Ht.
  repeat split. intros data' t' Ht'.
  rewrite serve_home. unfold write_file. simpl.
  rewrite lookup_insert_eq. simpl. by rewrite Ht'.
Qed.

Local Abbreviation target rest := (walk root (posixpath.split rest)).

(** The static mount, by whether the request stays in the directory. *)
Lemma serve_static_inside (w : world) (rest : string) :
  root `prefix_of` target rest →
  serve ("/static/" +:+ rest) w =
  match disk w !! target rest with
  | Some (File data _) =>
      ({| status_code := 200;
          media_type :=
            Some (content_type_of (extension (List.last (target rest) "")));
          body := Raw data |}, w, [])
  | _ => (error 404, w, [])
  end.
Proof.
  intros Hin. rewrite route_static. unfold StaticFiles. fold root.
  by rewrite bool_decide_eq_true_2.
Qed.

Lemma serve_static_outside (w : world) (rest : string) :
  ¬ root `prefix_of` target rest →
  serve ("/static/" +:+ rest) w
  = (error (refusal_status on_traversal), w, []).
Proof.
  intros Hout. rewrite route_static. unfold StaticFiles. fold root.
  by rewrite bool_decide_eq_false_2.
Qed.

(** C4: [GET /] answers 200 exactly when the index file is there, is
    readable and decodes; otherwise it answers 500 with the
    framework's error page and nothing of the file.  When the file
    is missing or unreadable, the one failed [open] is all the
    handler does.  A request that follows a served one, with the
    file removed in between, answers 500 as well. *)
Theorem home_fails_when_index_unreadable (w : world) :
  (status_code (outcome (serve "/" w)) = 200%Z
   ↔ ∃ data t, disk w !! idx = Some (File data true) ∧ text_of data = Some t)
  ∧ ((¬ ∃ data t, disk w !! idx = Some (File data true)
                  ∧ text_of data = Some t) →
     outcome (serve "/" w) = error 500 ∧ after (serve "/" w) = w)
  ∧ (disk w !! idx = None ∨ (∃ data, disk w !! idx = Some (File data false)) →
     serve "/" w = (error 500, w, [SysOpen idx]))
  ∧ outcome (serve "/" (remove_file idx (after (serve "/" w)))) = error 500.
Proof.
  assert (Hafter : after (serve "/" w) = w).
  { rewrite serve_home.
    by destruct (disk w !! idx) as [[data [|]|]|]. }
  split; [|split; [|split]].
  - rewrite serve_home.
    destruct (disk w !! idx) as [[data [|]|]|] eqn:Hd; simpl.
    + destruct (text_of data) as [t|] eqn:Ht; simpl.
      * split; [eauto | done].
      * split; [done |]. intros (? & ? & ? & ?). congruence.
    + split; [done |]. intros (? & ? & ? & ?). congruence.
    + split; [done |]. intros (? & ? & ? & ?). congruence.
    + split; [done |]. intros (? & ? & ? & ?). congruence.
  - intros Hno. split; [|done]. rewrite serve_home.
    destruct (disk w !! idx) as [[data [|]|]|] eqn:Hd; simpl; try done.
    destruct (text_of data) as [t|] eqn:Ht; simpl; [|done].
    destruct Hno. eauto.
  - rewrite serve_home. by intros [-> | [data ->]].
  - rewrite Hafter, serve_home. unfold remove_file. simpl.
    by rewrite lookup_delete_eq.
Qed.

(** C9, as the code has it: the index file is read as UTF-8 text.
    Bytes that are not valid UTF-8 give status 500; bytes that
    decode give status 200 with the decoded text as body, in which
    every CR LF pair and every lone CR has become LF; a text with no
    CR is served as decoded. *)
Theorem home_decodes_utf8 (w : world) (data : bytes) :
  disk w !! idx = Some (File data true) →
  (Utf8.decode_bytes data = None → outcome (serve "/" w) = error 500)
  ∧ (∀ t, Utf8.decode_bytes data = Some t →
          outcome (serve "/" w)
          = {| status_code := 200; media_type := Some "text/html";
               body := Text (translate_newlines t) |})
  ∧ (∀ t, Utf8.decode_bytes data = Some t → 13%N ∉ t →
          outcome (serve "/" w)
          = {| status_code := 200; media_type := Some "text/html";
               body := Text t |}).
Proof.
  intros Hd. rewrite serve_home, Hd. unfold text_of. simpl.
  split; [|split].
  - by intros ->.
  - by intros t ->.
  - intros t -> Hcr. simpl. by rewrite translate_newlines_no_cr.
Qed.

(** C8: the index page is the file [index.html] of the static
    directory.  Whenever [GET /] answers 200, its body is the text of
    that file, and [GET /static/index.html] answers 200 with the
    bytes of the same file. *)
Theorem index_served_by_both_routes (w : world) :
  status_code (outcome (serve "/" w)) = 200%Z →
  idx = root ++ ["index.html"]
  ∧ ∃ data t,
      disk w !! idx = Some (File data true)
      ∧ text_of data = Some t
      ∧ outcome (serve "/" w)
        = {| status_code := 200; media_type := Some "text/html";
             body := Text t |}
      ∧ outcome (serve "/static/index.html" w)
        = {| status_code := 200;
             media_type := Some (content_type_of ".html");
             body := Raw data |}.
Proof.
  intros H200. split; [apply index_path_in_static_root |].
  rewrite serve_home in *.
  destruct (disk w !! idx) as [[data [|]|]|] eqn:Hd; try done.
  simpl in H200. destruct (text_of data) as [t|] eqn:Ht; [|done].
  exists data, t. split_and!; [done.. |].
  change "/static/index.html" with ("/static/" +:+ "index.html").
  assert (Ht' : target "index.html" = idx)
    by (by rewrite index_path_in_static_root).
  rewrite serve_static_inside.
  - rewrite Ht', Hd. rewrite index_path_in_static_root.
    by rewrite last_app_nonempty.
  - rewrite Ht', index_path_in_static_root. by apply prefix_app_r.
Qed.

(** C1: a request below [/static/] whose remainder resolves outside
    the static directory is answered 403 or 404, never 200, with the
    framework's error page; the answer is the same whatever the disk
    holds, so it carries nothing of any file. *)
Theorem traversal_is_refused (w : world) (rest : string) :
  ¬ root `prefix_of` target rest →
  (status_code (outcome (serve ("/static/" +:+ rest) w)) = 403%Z
   ∨ status_code (outcome (serve ("/static/" +:+ rest) w)) = 404%Z)
  ∧ status_code (outcome (serve ("/static/" +:+ rest) w)) ≠ 200%Z
  ∧ body (outcome (serve ("/static/" +:+ rest) w)) = Default
  ∧ ∀ w', outcome (serve ("/static/" +:+ rest) w')
          = outcome (serve ("/static/" +:+ rest) w).
Proof.
  intros Hout. rewrite serve_static_outside by done. simpl.
  split; [by destruct on_traversal; auto |].
  split; [by destruct on_traversal |].
  split; [done |].
  intros w'. by rewrite serve_static_outside.
Qed.

(** C5: a file that exists below the static directory at a relative
    path of proper components is served with status 200, its bytes as
    they are on disk, and the content type of its extension. *)
Theorem static_file_served_verbatim
    (w : world) (rel : list string) (data : bytes) (rd : bool) :
  rel ≠ [] → Forall proper rel →
  disk w !! (root ++ rel) = Some (File data rd) →
  outcome (serve ("/static/" +:+ String.concat "/" rel) w)
  = {| status_code := 200;
       media_type := Some (content_type_of (extension (List.last rel "")));
       body := Raw data |}.
Proof.
  intros Hne Hrel Hd.
  assert (Ht : target (String.concat "/" rel) = root ++ rel)
    by (by rewrite split_concat, walk_proper).
  rewrite serve_static_inside by (rewrite Ht; by apply prefix_app_r).
  rewrite Ht, Hd. by rewrite last_app_nonempty.
Qed.

(** C6: a request below [/static/] that resolves inside the static
    directory to a path where no file exists is answered 404. *)
Theorem missing_static_file_is_404 (w : world) (rest : string) :
  root `prefix_of` target rest →
  disk w !! target rest = None →
  outcome (serve ("/static/" +:+ rest) w) = error 404.
Proof. intros Hin Hd. by rewrite serve_static_inside, Hd. Qed.

(** C7: handling a request leaves the state of the process as it
    was, and the response depends on the request path and the disk
    alone: two states with the same disk get the same response.  The
    response of [/health] is the same in all states. *)
Theorem handlers_are_stateless (request_path : string) (w : world) :
  after (serve request_path w) = w
  ∧ (∀ w', disk w' = disk w →
           outcome (serve request_path w') = outcome (serve request_path w))
  ∧ (∀ w1 w2, outcome (serve "/health" w1) = outcome (serve "/health" w2)).
Proof.
  split; [|split; [|done]].
  - unfold app. destruct (strip_prefix "/static/" request_path) as [rest|].
    + unfold StaticFiles. case_bool_decide; [|done].
      by destruct (disk w !! _) as [[]|].
    + repeat case_decide; [| done | done].
      unfold HTMLResponse, respond. rewrite home_run.
      destruct (disk w !! idx) as [[data [|]|]|]; try done.
      simpl. by destruct (text_of data).
  - intros w' Hdisk. unfold app.
    destruct (strip_prefix "/static/" request_path) as [rest|].
    + unfold StaticFiles. rewrite Hdisk. case_bool_decide; [|done].
      by destruct (disk w !! _) as [[]|].
    + repeat case_decide; [| done | done].
      unfold HTMLResponse, respond. rewrite !home_run, Hdisk.
      destruct (disk w !! idx) as [[data [|]|]|]; try done.
      simpl. by destruct (text_of data).
Qed.

End AppFacts.

(** ** The sample deployment, request by request *)

Module SampleFacts.
Import Sample.

Lemma index_on_disk :
  disk w0 !! index_path [] module_file = Some (File page true).
Proof. vm_compute. reflexivity. Qed.

Lemma page_decodes : text_of page = Some page_text.
Proof. vm_compute. reflexivity. Qed.

Lemma main_py_is_outside :
  ¬ static_root [] module_file
    `prefix_of` walk (static_root [] module_file)
                     (posixpath.split "../main.py").
Proof. apply (proj1 (bool_decide_eq_false _)). vm_compute. reflexivity. Qed.

Lemma nothing_is_inside :
  static_root [] module_file
    `prefix_of` walk (static_root [] module_file)
                     (posixpath.split "nothing.css").
Proof. apply (proj1 (bool_decide_eq_true _)). vm_compute. reflexivity. Qed.

Lemma logo_is_proper : Forall proper ["logo.png"].
Proof. repeat constructor; done. Qed.

End SampleFacts.

Lemma home_serves_current_index_witness :
  disk Sample.w0 !! index_path [] Sample.module_file
  = Some (File Sample.page true)
  ∧ text_of Sample.page = Some Sample.page_text
  ∧ outcome (Sample.serve "/" Sample.w0)
    = {| status_code := 200; media_type := Some "text/html";
         body := Text Sample.page_text |}.
Proof.
  split; [exact SampleFacts.index_on_disk |].
  split; [exact SampleFacts.page_decodes |].
  exact (proj1 (home_serves_current_index [] Sample.module_file
                  Sample.content_type_of NotFound Sample.w0 Sample.page
                  Sample.page_text SampleFacts.index_on_disk
                  SampleFacts.page_decodes)).
Defined.

Lemma home_fails_when_index_unreadable_witness :
  disk (remove_file (index_path [] Sample.module_file) Sample.w0)
    !! index_path [] Sample.module_file = None
  ∧ Sample.serve "/" (remove_file (index_path [] Sample.module_file) Sample.w0)
    = (error 500, remove_file (index_path [] Sample.module_file) Sample.w0,
       [SysOpen (index_path [] Sample.module_file)]).
Proof.
  assert (H : disk (remove_file (index_path [] Sample.module_file) Sample.w0)
                !! index_path [] Sample.module_file = None)
    by (vm_compute; reflexivity).
  split; [exact H |].
  destruct (home_fails_when_index_unreadable [] Sample.module_file
              Sample.content_type_of NotFound
              (remove_file (index_path [] Sample.module_file) Sample.w0))
    as (_ & _ & Hmissing & _).
  apply Hmissing. left. exact H.
Defined.

(** C9 as stated fails: a page with a Windows line end decodes to a
    text with CR LF, and the body served has a single LF in its place. *)
Lemma home_body_is_not_the_plain_decoding :
  disk Sample.w_crlf !! index_path [] Sample.module_file
  = Some (File Sample.crlf_page true)
  ∧ Utf8.decode_bytes Sample.crlf_page = Some [97; 13; 10; 98]%N
  ∧ outcome (Sample.serve "/" Sample.w_crlf)
    = {| status_code := 200; media_type := Some "text/html";
         body := Text [97; 10; 98]%N |}
  ∧ body (outcome (Sample.serve "/" Sample.w_crlf)) ≠ Text [97; 13; 10; 98]%N.
Proof.
  split; [vm_compute; reflexivity |].
  split; [vm_compute; reflexivity |].
  split; [vm_compute; reflexivity |].
  vm_compute. discriminate.
Qed.

Lemma home_decodes_utf8_witness :
  disk Sample.w_crlf !! index_path [] Sample.module_file
  = Some (File Sample.crlf_page true)
  ∧ Utf8.decode_bytes Sample.crlf_page = Some [97; 13; 10; 98]%N
  ∧ outcome (Sample.serve "/" Sample.w_crlf)
    = {| status_code := 200; media_type := Some "text/html";
         body := Text (translate_newlines [97; 13; 10; 98]%N) |}.
Proof.
  assert (Hd : disk Sample.w_crlf !! index_path [] Sample.module_file
               = Some (File Sample.crlf_page true))
    by (vm_compute; reflexivity).
  assert (Ht : Utf8.decode_bytes Sample.crlf_page = Some [97; 13; 10; 98]%N)
    by (vm_compute; reflexivity).
  split; [exact Hd |]. split; [exact Ht |].
  destruct (home_decodes_utf8 [] Sample.module_file Sample.content_type_of
              NotFound Sample.w_crlf Sample.crlf_page Hd) as (_ & Hdec & _).
  exact (Hdec _ Ht).
Defined.

Lemma index_served_by_both_routes_witness :
  status_code (outcome (Sample.serve "/" Sample.w0)) = 200%Z
  ∧ outcome (Sample.serve "/static/index.html" Sample.w0)
    = {| status_code := 200; media_type := Some "text/html";
         body := Raw Sample.page |}.
Proof.
  assert (H : status_code (outcome (Sample.serve "/" Sample.w0)) = 200%Z)
    by (vm_compute; reflexivity).
  split; [exact H |].
  destruct (index_served_by_both_routes [] Sample.module_file
              Sample.content_type_of NotFound Sample.w0 H)
    as (_ & data & t & Hd & _ & _ & Hstatic).
  rewrite SampleFacts.index_on_disk in Hd. injection Hd as <-.
  exact Hstatic.
Defined.

Lemma traversal_is_refused_witness :
  ¬ static_root [] Sample.module_file
    `prefix_of` walk (static_root [] Sample.module_file)
                     (posixpath.split "../main.py")
  ∧ status_code (outcome (Sample.serve "/static/../main.py" Sample.w0)) ≠ 200%Z.
Proof.
  split; [exact SampleFacts.main_py_is_outside |].
  destruct (traversal_is_refused [] Sample.module_file Sample.content_type_of
              NotFound Sample.w0 "../main.py" SampleFacts.main_py_is_outside)
    as (_ & Hne & _).
  exact Hne.
Defined.

Lemma static_file_served_verbatim_witness :
  disk Sample.w0 !! (static_root [] Sample.module_file ++ ["logo.png"])
  = Some (File Sample.logo true)
  ∧ outcome (Sample.serve "/static/logo.png" Sample.w0)
    = {| status_code := 200; media_type := Some "image/png";
         body := Raw Sample.logo |}.
Proof.
  assert (Hd : disk Sample.w0
                 !! (static_root [] Sample.module_file ++ ["logo.png"])
               = Some (File Sample.logo true))
    by (vm_compute; reflexivity).
  split; [exact Hd |].
  refine (static_file_served_verbatim [] Sample.module_file
            Sample.content_type_of NotFound Sample.w0 ["logo.png"]
            Sample.logo true _ SampleFacts.logo_is_proper Hd).
  discriminate.
Defined.

Lemma missing_static_file_is_404_witness :
  disk Sample.w0
    !! walk (static_root [] Sample.module_file)
            (posixpath.split "nothing.css") = None
  ∧ outcome (Sample.serve "/static/nothing.css" Sample.w0) = error 404.
Proof.
  assert (Hd : disk Sample.w0
                 !! walk (static_root [] Sample.module_file)
                         (posixpath.split "nothing.css") = None)
    by (vm_compute; reflexivity).
  split; [exact Hd |].
  exact (missing_static_file_is_404 [] Sample.module_file
           Sample.content_type_of NotFound Sample.w0 "nothing.css"
           SampleFacts.nothing_is_inside Hd).
Defined.

Lemma handlers_are_stateless_witness :
  after (Sample.serve "/" Sample.w0) = Sample.w0
  ∧ outcome (Sample.serve "/" {| disk := Sample.files;
                                 fds := {[ 0 := {| of_path := [];
                                                   of_pos := 0 |} ]} |})
    = outcome (Sample.serve "/" Sample.w0).
Proof.
  destruct (handlers_are_stateless [] Sample.module_file
              Sample.content_type_of NotFound "/" Sample.w0)
    as (Hafter & Hsame & _).
  split; [exact Hafter |].
  apply Hsame. reflexivity.
Defined.

(** * Further properties of the module *)

(** ** [BASE_DIR] and [STATIC_DIR] *)

Module path_constants.
Import posixpath posixpath_facts.

Lemma endswith_sep_split (a : string) :
  endswith_sep a = true → ∃ a', a = a' +:+ "/".
Proof.
  induction a as [|c a IH]; [done |]. intros He.
  destruct a as [|c' a].
  - simpl in He. exists "". unfold is_sep in He.
    by apply Ascii.eqb_eq in He as ->.
  - destruct (IH He) as [a' Ha']. exists (String c a').
    by rewrite append_cons, <- Ha'.
Qed.

Lemma only_seps_endswith (a : string) :
  only_seps a = true → a ≠ "" → endswith_sep a = true.
Proof.
  induction a as [|c a IH]; [done |]. intros Ho _.
  change (only_seps (String c a)) with (is_sep c && only_seps a) in Ho.
  apply andb_true_iff in Ho as [Hc Ha].
  destruct a as [|c' a]; [done |].
  change (endswith_sep (String c (String c' a)))
    with (endswith_sep (String c' a)).
  by apply IH.
Qed.

Lemma rstrip_sep_empty (s : string) :
  rstrip_sep s = "" → only_seps s = true.
Proof.
  induction s as [|c s IH]; [done |]. simpl.
  destruct (rstrip_sep s) eqn:E; [|done].
  destruct (is_sep c); [|done]. intros _. by rewrite IH.
Qed.

Lemma endswith_sep_rstrip (s : string) : endswith_sep (rstrip_sep s) = false.
Proof.
  induction s as [|c s IH]; [done |]. simpl.
  destruct (rstrip_sep s) as [|c' r] eqn:E.
  - by destruct (is_sep c) eqn:Hc; simpl; rewrite ?Hc.
  - exact IH.
Qed.

(** What [dirname] can return: a run of separators (possibly empty),
    or a name that does not end with a separator. *)
Lemma dirname_shape (p : string) :
  only_seps (dirname p) = true
  ∨ (dirname p ≠ "" ∧ endswith_sep (dirname p) = false).
Proof.
  unfold dirname.
  destruct (String.eqb_spec (head p) "") as [E|E]; simpl.
  - left. by rewrite E.
  - destruct (only_seps (head p)) eqn:Ho; simpl; [by left |].
    right. split; [|apply endswith_sep_rstrip].
    intros Hr. apply rstrip_sep_empty in Hr. congruence.
Qed.

Lemma head_append_name (a name : string) :
  has_sep name = false → a = "" ∨ endswith_sep a = true →
  head (a +:+ name) = a.
Proof.
  intros Hname [-> | [a' ->]%endswith_sep_split].
  - by apply head_no_sep.
  - rewrite append_assoc. by apply head_append_sep.
Qed.

Lemma dirname_join_static (b : string) :
  only_seps b = true ∨ (b ≠ "" ∧ endswith_sep b = false) →
  dirname (join b "static") = b.
Proof.
  intros [Ho | [Hb He]].
  - assert (Hend : b = "" ∨ endswith_sep b = true).
    { destruct b as [|c b]; [by left |]. right. by apply only_seps_endswith. }
    assert (Hj : join b "static" = b +:+ "static").
    { unfold join. simpl startswith_sep. cbv iota.
      destruct Hend as [-> | ->]; [done |]. by rewrite orb_true_r. }
    rewrite Hj. unfold dirname.
    rewrite (head_append_name b "static" eq_refl Hend), Ho.
    by rewrite andb_false_r.
  - rewrite (join_plain b "static" Hb He eq_refl).
    by apply dirname_of_entry.
Qed.

Lemma dirname_no_sep (f : string) : has_sep f = false → dirname f = "".
Proof. intros Hf. unfold dirname. by rewrite (head_no_sep _ Hf). Qed.

End path_constants.

(** X1: the directory of [STATIC_DIR] is [BASE_DIR], whatever the
    value of [__file__]: joining ["static"] onto what [dirname]
    returned and taking [dirname] again gives it back. *)
Theorem static_dir_parent_is_base_dir (module_file : string) :
  posixpath.dirname (STATIC_DIR module_file) = BASE_DIR module_file.
Proof.
  unfold STATIC_DIR, BASE_DIR.
  apply path_constants.dirname_join_static, path_constants.dirname_shape.
Qed.

(** X2: for a module stored as [d/name], where [d] is named and
    written without a trailing separator, [STATIC_DIR] is [d/static]. *)
Theorem static_dir_next_to_module (d name : string) :
  d ≠ "" → posixpath.endswith_sep d = false → posixpath.has_sep name = false →
  BASE_DIR (d +:+ "/" +:+ name) = d
  ∧ STATIC_DIR (d +:+ "/" +:+ name) = d +:+ "/" +:+ "static".
Proof.
  intros Hd He Hname.
  assert (Hb : BASE_DIR (d +:+ "/" +:+ name) = d)
    by (by apply posixpath_facts.dirname_of_entry).
  split; [done |]. unfold STATIC_DIR. rewrite Hb.
  by apply posixpath_facts.join_plain.
Qed.

Lemma static_dir_next_to_module_witness :
  "/srv/app" ≠ ""
  ∧ posixpath.endswith_sep "/srv/app" = false
  ∧ posixpath.has_sep "main.py" = false
  ∧ STATIC_DIR "/srv/app/main.py" = "/srv/app/static".
Proof.
  split; [discriminate |]. split; [reflexivity |]. split; [reflexivity |].
  exact (proj2 (static_dir_next_to_module "/srv/app" "main.py"
                  ltac:(discriminate) eq_refl eq_refl)).
Defined.

(** X3: when [__file__] is a bare file name, [BASE_DIR] is the empty
    string and [STATIC_DIR] the relative path [static], so the index
    page is looked up below the working directory of the process. *)
Theorem static_dir_of_bare_module_name (cwd : path) (module_file : string) :
  posixpath.has_sep module_file = false →
  BASE_DIR module_file = ""
  ∧ STATIC_DIR module_file = "static"
  ∧ index_path cwd module_file = cwd ++ ["static"; "index.html"].
Proof.
  intros Hf.
  assert (Hb : BASE_DIR module_file = "")
    by (by apply path_constants.dirname_no_sep).
  assert (Hs : STATIC_DIR module_file = "static")
    by (unfold STATIC_DIR; by rewrite Hb).
  split; [done |]. split; [done |].
  unfold index_path. rewrite Hs.
  change (namei cwd (posixpath.join "static" "index.html"))
    with ((cwd ++ ["static"]) ++ ["index.html"]).
  by rewrite <- app_assoc.
Qed.

Lemma static_dir_of_bare_module_name_witness :
  posixpath.has_sep "main.py" = false
  ∧ index_path ["home"; "me"] "main.py"
    = ["home"; "me"; "static"; "index.html"].
Proof.
  split; [reflexivity |].
  exact (proj2 (proj2 (static_dir_of_bare_module_name
                         ["home"; "me"] "main.py" eq_refl))).
Defined.

(** Resolving [join(b, "static")] is resolving [b] and stepping into
    [static], for every [b]. *)
Lemma namei_join_static (cwd : path) (b : string) :
  namei cwd (posixpath.join b "static") = namei cwd b ++ ["static"].
Proof.
  unfold posixpath.join. simpl posixpath.startswith_sep. cbv iota.
  destruct (String.eqb_spec b "") as [-> | Hb]; [done |]. simpl orb.
  destruct (posixpath.endswith_sep b) eqn:He.
  - destruct (path_constants.endswith_sep_split _ He) as [b' ->].
    unfold namei.
    rewrite posixpath_facts.startswith_sep_append by done.
    rewrite posixpath_facts.append_assoc.
    change ("/" +:+ "static") with (String "/" "static").
    change (b' +:+ "/") with (b' +:+ String "/" "").
    rewrite !posixpath_facts.split_append_sep, !walk_app. done.
  - unfold namei.
    rewrite posixpath_facts.startswith_sep_append by done.
    change (b +:+ "/" +:+ "static") with (b +:+ String "/" "static").
    rewrite posixpath_facts.split_append_sep, walk_app. done.
Qed.

(** X4: for every [__file__] and working directory, the file [home]
    opens is the entry [index.html] of the entry [static] of the
    directory that [BASE_DIR] resolves to. *)
Theorem index_path_below_base_dir (cwd : path) (module_file : string) :
  index_path cwd module_file
  = namei cwd (BASE_DIR module_file) ++ ["static"; "index.html"].
Proof.
  rewrite index_path_in_static_root. unfold static_root, STATIC_DIR.
  by rewrite namei_join_static, <- app_assoc.
Qed.

(** ** The text [home] returns *)

Module text_facts.
Import Utf8.

Local Open Scope N_scope.

Lemma scalar_value_spec (c : N) :
  scalar_value c = true ↔ c < 0xD800 ∨ (0xDFFF < c ∧ c < 0x110000).
Proof.
  unfold scalar_value.
  rewrite orb_true_iff, andb_true_iff, !N.ltb_lt. done.
Qed.

Lemma between_spec (lo hi b : N) : between lo hi b = true ↔ lo <= b ∧ b <= hi.
Proof. unfold between. by rewrite andb_true_iff, !N.leb_le. Qed.

Lemma land_low (b : N) (n : N) : N.land b (N.ones n) = b mod 2 ^ n.
Proof. apply N.land_ones. Qed.

Lemma low6_mod (b : N) : low6 b = b mod 64.
Proof. exact (land_low b 6). Qed.

Lemma shiftl_mul (a n : N) : N.shiftl a n = a * 2 ^ n.
Proof. apply N.shiftl_mul_pow2. Qed.

(** One unfolding of the decoder. *)
Lemma decode_cons (b0 : N) (r0 : list N) :
  decode (b0 :: r0) =
  if b0 <? 0x80 then cons b0 <$> decode r0
  else if b0 <? 0xC2 then None
  else if b0 <? 0xE0 then
    match r0 with
    | b1 :: r1 =>
        if continuation b1
        then cons (N.shiftl (N.land b0 0x1F) 6 + low6 b1) <$> decode r1
        else None
    | _ => None
    end
  else if b0 <? 0xF0 then
    match r0 with
    | b1 :: b2 :: r2 =>
        if between (if b0 =? 0xE0 then 0xA0 else 0x80)
                   (if b0 =? 0xED then 0x9F else 0xBF) b1 && continuation b2
        then cons (N.shiftl (N.land b0 0x0F) 12
                   + N.shiftl (low6 b1) 6 + low6 b2) <$> decode r2
        else None
    | _ => None
    end
  else if b0 <? 0xF5 then
    match r0 with
    | b1 :: b2 :: b3 :: r3 =>
        if between (if b0 =? 0xF0 then 0x90 else 0x80)
                   (if b0 =? 0xF4 then 0x8F else 0xBF) b1
           && continuation b2 && continuation b3
        then cons (N.shiftl (N.land b0 0x07) 18
                   + N.shiftl (low6 b1) 12
                   + N.shiftl (low6 b2) 6 + low6 b3) <$> decode r3
        else None
    | _ => None
    end
  else None.
Proof. reflexivity. Qed.

Ltac code_point_bounds :=
  unfold continuation in *;
  repeat match goal with
         | H : _ && _ = true |- _ => apply andb_true_iff in H as [? ?]
         | H : between _ _ _ = true |- _ => apply between_spec in H as [? ?]
         | H : (_ <? _) = false |- _ => apply N.ltb_ge in H
         | H : (_ <? _) = true |- _ => apply N.ltb_lt in H
         end;
  apply scalar_value_spec;
  rewrite ?low6_mod, ?(land_low _ 5), ?(land_low _ 4), ?(land_low _ 3),
    ?shiftl_mul;
  change (2 ^ 3) with 8; change (2 ^ 4) with 16; change (2 ^ 5) with 32;
  change (2 ^ 6) with 64; change (2 ^ 12) with 4096;
  change (2 ^ 18) with 262144;
  zify; Z.to_euclidean_division_equations; lia.

(** The decoder takes one to four bytes off the front, makes one
    scalar value of them, and goes on with the rest. *)
Lemma decode_cons_inv (b0 : N) (r0 : list N) (t : str) :
  decode (b0 :: r0) = Some t →
  ∃ c k t', (k <= 3)%nat ∧ (k <= length r0)%nat
            ∧ decode (drop k r0) = Some t'
            ∧ t = c :: t' ∧ scalar_value c = true.
Proof.
  rewrite decode_cons.
  destruct (b0 <? 0x80) eqn:H1.
  { destruct (decode r0) as [t'|] eqn:Hr; [|done]. intros [= <-].
    exists b0, 0%nat, t'. split_and!; [lia | lia | done | done |].
    code_point_bounds. }
  destruct (b0 <? 0xC2) eqn:H2; [done |].
  destruct (b0 <? 0xE0) eqn:H3.
  { destruct r0 as [|b1 r1]; [done |].
    destruct (continuation b1) eqn:Hc1; [|done].
    destruct (decode r1) as [t'|] eqn:Hr; [|done]. intros [= <-].
    eexists _, 1%nat, t'. split_and!; [lia | simpl; lia | done | done |].
    change 0x1F with (N.ones 5). code_point_bounds. }
  destruct (b0 <? 0xF0) eqn:H4.
  { destruct r0 as [|b1 [|b2 r2]]; [done | done |].
    destruct (between _ _ b1 && continuation b2) eqn:Hc; [|done].
    destruct (decode r2) as [t'|] eqn:Hr; [|done]. intros [= <-].
    eexists _, 2%nat, t'. split_and!; [lia | simpl; lia | done | done |].
    change 0x0F with (N.ones 4).
    destruct (N.eqb_spec b0 0xE0), (N.eqb_spec b0 0xED); code_point_bounds. }
  destruct (b0 <? 0xF5) eqn:H5; [|done].
  destruct r0 as [|b1 [|b2 [|b3 r3]]]; [done | done | done |].
  destruct (between _ _ b1 && continuation b2 && continuation b3) eqn:Hc;
    [|done].
  destruct (decode r3) as [t'|] eqn:Hr; [|done]. intros [= <-].
  eexists _, 3%nat, t'. split_and!; [lia | simpl; lia | done | done |].
  change 0x07 with (N.ones 3).
  destruct (N.eqb_spec b0 0xF0), (N.eqb_spec b0 0xF4); code_point_bounds.
Qed.

(** Every code point the decoder produces is a scalar value, and it
    produces at most one per byte. *)
Lemma decode_scalar_and_short (bs : list N) (t : str) :
  decode bs = Some t →
  Forall (λ c, scalar_value c = true) t ∧ (length t <= length bs)%nat.
Proof.
  intros Hd. assert (Hn : ∃ n, (length bs <= n)%nat) by eauto.
  destruct Hn as [n Hle].
  revert bs t Hle Hd. induction n as [|n IH]; intros bs t Hle Hd.
  - destruct bs; [|simpl in Hle; lia]. injection Hd as <-. by split.
  - destruct bs as [|b0 r0]; [injection Hd as <-; by split |].
    destruct (decode_cons_inv _ _ _ Hd) as (c & k & t' & Hk & Hkr & Hr & -> & Hc).
    simpl in Hle.
    destruct (IH (drop k r0) t') as [Hall Hlen]; [|done |].
    { rewrite length_drop. lia. }
    split; [by constructor |].
    rewrite length_drop in Hlen. simpl. lia.
Qed.

(** Below 0x80 every byte is its own code point. *)
Lemma decode_ascii (bs : list N) :
  Forall (λ b, b < 0x80) bs → decode bs = Some bs.
Proof.
  induction 1 as [|b bs Hb _ IH]; [done |].
  rewrite decode_cons. apply N.ltb_lt in Hb. by rewrite Hb, IH.
Qed.

(** What universal newlines leave in the text: no CR, and beside the
    LF they put in, only what was there. *)
Lemma translate_newlines_elem (t : str) (x : N) :
  x ∈ translate_newlines t → x ≠ 13 ∧ (x = 10 ∨ x ∈ t).
Proof.
  assert (Hn : ∃ n, (length t <= n)%nat) by eauto.
  destruct Hn as [n Hle].
  revert t Hle. induction n as [|n IH]; intros t Hle.
  - destruct t; [|simpl in Hle; lia]. by intros ?%elem_of_nil.
  - destruct t as [|c r]; [by intros ?%elem_of_nil |].
    simpl in Hle. simpl.
    destruct (N.eqb_spec c 13) as [-> | Hc].
    + destruct r as [|c' r'].
      * intros ->%list_elem_of_singleton. by split; [|left].
      * simpl in Hle.
        intros [-> | Hx]%elem_of_cons; [by split; [|left] |].
        destruct (N.eqb_spec c' 10) as [-> | Hc'].
        -- destruct (IH r' ltac:(lia) Hx) as [? [? | ?]];
             (split; [done |]); [by left |].
           right. apply elem_of_cons. right. apply elem_of_cons. by right.
        -- destruct (IH (c' :: r') ltac:(simpl; lia) Hx) as [? [? | ?]];
             (split; [done |]); [by left |].
           right. apply elem_of_cons. by right.
    + intros [-> | Hx]%elem_of_cons; [split; [done | right; by left] |].
      destruct (IH r ltac:(lia) Hx) as [? [? | ?]];
        (split; [done |]); [by left |].
      right. apply elem_of_cons. by right.
Qed.

Lemma translate_newlines_short (t : str) :
  (length (translate_newlines t) <= length t)%nat.
Proof.
  assert (Hn : ∃ n, (length t <= n)%nat) by eauto.
  destruct Hn as [n Hle].
  revert t Hle. induction n as [|n IH]; intros t Hle.
  - destruct t; [done | simpl in Hle; lia].
  - destruct t as [|c r]; [done |]. simpl in Hle. simpl.
    destruct (c =? 13).
    + destruct r as [|c' r']; [simpl; lia |]. simpl in Hle.
      destruct (c' =? 10).
      * pose proof (IH r' ltac:(lia)). simpl. lia.
      * pose proof (IH (c' :: r') ltac:(simpl; lia)). simpl in *. lia.
    + pose proof (IH r ltac:(lia)). simpl. lia.
Qed.

(** The text read from a file: scalar values only, no CR, and no
    longer than the file. *)
Lemma text_of_well_formed (data : bytes) (t : str) :
  text_of data = Some t →
  Forall (λ c, scalar_value c = true) t
  ∧ (13 ∉ t)
  ∧ (length t <= length data)%nat.
Proof.
  unfold text_of, decode_bytes.
  destruct (decode (Byte.to_N <$> data)) as [u|] eqn:Hd; [|done].
  intros [= <-].
  destruct (decode_scalar_and_short _ _ Hd) as [Hall Hlen].
  rewrite length_fmap in Hlen.
  split_and!.
  - apply Forall_forall. intros x Hx.
    destruct (translate_newlines_elem _ _ Hx) as [_ [-> | Hin]]; [done |].
    by apply (proj1 (Forall_forall _ _) Hall).
  - intros Hx. by destruct (translate_newlines_elem _ _ Hx).
  - pose proof (translate_newlines_short u). lia.
Qed.

End text_facts.

(** ** The handler [home] *)

(** [home] returns exactly when the index file is a readable file
    whose bytes decode, and then returns their text. *)
Lemma home_returns_inv (cwd : path) (module_file : string) (w : world) (t : str) :
  outcome (home cwd module_file w) = Ok t →
  ∃ data, disk w !! index_path cwd module_file = Some (File data true)
          ∧ text_of data = Some t.
Proof.
  rewrite home_run.
  destruct (disk w !! index_path cwd module_file) as [[data [|]|]|];
    try done.
  cbn. destruct (text_of data) as [u|] eqn:Hu; [|done].
  intros [= <-]. by exists data.
Qed.



(** X6: [home] closes the file it opened on every way out.  The table
    of open files is afterwards what it was before; when the index
    file could be opened the log is open, read, close on one
    descriptor, whether or not the bytes decode; when it could not,
    the log is the one failed open. *)
Theorem home_closes_the_index_file
    (cwd : path) (module_file : string) (w : world) :
  fds (after (home cwd module_file w)) = fds w
  ∧ (∀ data, disk w !! index_path cwd module_file = Some (File data true) →
             calls (home cwd module_file w)
             = [SysOpen (index_path cwd module_file);
                SysRead (fresh (dom (fds w)));
                SysClose (fresh (dom (fds w)))])
  ∧ ((¬ ∃ data, disk w !! index_path cwd module_file = Some (File data true)) →
     calls (home cwd module_file w) = [SysOpen (index_path cwd module_file)]).
Proof.
  rewrite home_run.
  destruct (disk w !! index_path cwd module_file) as [[data [|]|]|] eqn:Hd;
    cbn; (split_and!; [done | try done | try done]).
  intros Hno. destruct Hno. by exists data.
Qed.

Lemma home_closes_the_index_file_witness :
  disk Sample.w_crlf !! index_path [] Sample.module_file
  = Some (File Sample.crlf_page true)
  ∧ calls (home [] Sample.module_file Sample.w_crlf)
    = [SysOpen ["srv"; "app"; "static"; "index.html"]; SysRead 0%nat;
       SysClose 0%nat].
Proof.
  assert (Hd : disk Sample.w_crlf !! index_path [] Sample.module_file
               = Some (File Sample.crlf_page true))
    by (vm_compute; reflexivity).
  split; [exact Hd |].
  destruct (home_closes_the_index_file [] Sample.module_file Sample.w_crlf)
    as (_ & Hopened & _).
  exact (Hopened _ Hd).
Defined.

(** X7: the text [home] returns has no carriage return in it. *)
Theorem home_text_has_no_carriage_return
    (cwd : path) (module_file : string) (w : world) (t : str) :
  outcome (home cwd module_file w) = Ok t → 13%N ∉ t.
Proof.
  intros (data & _ & Ht)%home_returns_inv.
  by destruct (text_facts.text_of_well_formed _ _ Ht) as (_ & ? & _).
Qed.

Lemma home_text_has_no_carriage_return_witness :
  outcome (home [] Sample.module_file Sample.w_crlf) = Ok [97; 10; 98]%N
  ∧ 13%N ∉ [97; 10; 98]%N.
Proof.
  assert (H : outcome (home [] Sample.module_file Sample.w_crlf)
              = Ok [97; 10; 98]%N) by (vm_compute; reflexivity).
  split; [exact H |].
  exact (home_text_has_no_carriage_return [] Sample.module_file
           Sample.w_crlf _ H).
Defined.

(** X8: every code point of the text [home] returns is a Unicode
    scalar value: none is a surrogate, none is above U+10FFFF. *)
Theorem home_text_is_scalar_values
    (cwd : path) (module_file : string) (w : world) (t : str) :
  outcome (home cwd module_file w) = Ok t →
  Forall (λ c, scalar_value c = true) t.
Proof.
  intros (data & _ & Ht)%home_returns_inv.
  by destruct (text_facts.text_of_well_formed _ _ Ht) as (? & _).
Qed.

Lemma home_text_is_scalar_values_witness :
  outcome (home [] Sample.module_file Sample.w0) = Ok Sample.page_text
  ∧ Forall (λ c, scalar_value c = true) Sample.page_text.
Proof.
  assert (H : outcome (home [] Sample.module_file Sample.w0)
              = Ok Sample.page_text) by (vm_compute; reflexivity).
  split; [exact H |].
  exact (home_text_is_scalar_values [] Sample.module_file Sample.w0 _ H).
Defined.

(** X9: the text [home] returns has at most one code point per byte
    of the index file. *)
Theorem home_text_not_longer_than_file
    (cwd : path) (module_file : string) (w : world) (t : str) (data : bytes)
    (rd : bool) :
  outcome (home cwd module_file w) = Ok t →
  disk w !! index_path cwd module_file = Some (File data rd) →
  (length t <= length data)%nat.
Proof.
  intros (data' & Hd' & Ht)%home_returns_inv Hd.
  rewrite Hd' in Hd. injection Hd as -> _.
  by destruct (text_facts.text_of_well_formed _ _ Ht) as (_ & _ & ?).
Qed.

Lemma home_text_not_longer_than_file_witness :
  outcome (home [] Sample.module_file Sample.w_crlf) = Ok [97; 10; 98]%N
  ∧ disk Sample.w_crlf !! index_path [] Sample.module_file
    = Some (File Sample.crlf_page true)
  ∧ (length [97; 10; 98]%N <= length Sample.crlf_page)%nat.
Proof.
  assert (H : outcome (home [] Sample.module_file Sample.w_crlf)
              = Ok [97; 10; 98]%N) by (vm_compute; reflexivity).
  assert (Hd : disk Sample.w_crlf !! index_path [] Sample.module_file
               = Some (File Sample.crlf_page true))
    by (vm_compute; reflexivity).
  split; [exact H |]. split; [exact Hd |].
  exact (home_text_not_longer_than_file [] Sample.module_file Sample.w_crlf
           _ _ _ H Hd).
Defined.

(** X10: an index file of ASCII bytes without a carriage return is
    returned by [home] byte for byte, each byte as its code point. *)
Theorem home_returns_ascii_page_unchanged
    (cwd : path) (module_file : string) (w : world) (data : bytes) :
  Forall (λ b, (Byte.to_N b < 0x80)%N ∧ Byte.to_N b ≠ 13%N) data →
  disk w !! index_path cwd module_file = Some (File data true) →
  outcome (home cwd module_file w) = Ok (Byte.to_N <$> data).
Proof.
  intros Hascii Hd. rewrite home_run, Hd. cbn.
  unfold text_of, Utf8.decode_bytes.
  rewrite text_facts.decode_ascii.
  - cbn. rewrite translate_newlines_no_cr; [done |].
    intros (b & Hb & Hin)%list_elem_of_fmap.
    destruct (proj1 (Forall_forall _ _) Hascii b Hin) as [_ Hne]. congruence.
  - apply Forall_fmap. eapply Forall_impl; [exact Hascii |].
    by intros b [? _].
Qed.

Lemma home_returns_ascii_page_unchanged_witness :
  Forall (λ b, (Byte.to_N b < 0x80)%N ∧ Byte.to_N b ≠ 13%N) Sample.page
  ∧ disk Sample.w0 !! index_path [] Sample.module_file
    = Some (File Sample.page true)
  ∧ outcome (home [] Sample.module_file Sample.w0)
    = Ok (Byte.to_N <$> Sample.page).
Proof.
  assert (Ha : Forall (λ b, (Byte.to_N b < 0x80)%N ∧ Byte.to_N b ≠ 13%N)
                 Sample.page)
    by (repeat constructor; done).
  split; [exact Ha |]. split; [exact SampleFacts.index_on_disk |].
  exact (home_returns_ascii_page_unchanged [] Sample.module_file Sample.w0
           Sample.page Ha SampleFacts.index_on_disk).
Defined.


